(** * Nightcrawler: the locale layout, the test providers and the news table

    A shallow embedding of three pieces of the site:
    - [Layout]: [LocaleLayout] of the [app/[locale]/layout.tsx] route, and
      [Routes]: its [generateStaticParams] and [generateMetadata],
    - [TestUtils]: [getMessagesForLocale] and [AllTheProviders] of the test
      utilities, and [Translate]: the function [t] of the mocked context,
    - [NewsTable]: the [LatestNewsTable] client component, and
      [NewsTableClicks]: its state under activations of the control.

    Asynchronous server code is written in a small state-and-exception monad
    over a [World] that holds the request's cookie store, the message loader
    and the log of calls made to the outside (cookie reads, loader calls,
    [console.error] lines). *)

From Stdlib Require Import String Ascii List Bool Arith Lia.
From stdpp Require Import base option list strings gmap.
Import ListNotations.

Local Set Warnings "-register-all".
Local Open Scope string_scope.
Local Open Scope list_scope.

(** ** Values shared by the three files *)

(** [AbstractIntlMessages] of next-intl: an object whose entries are either
    a string or a nested object of the same kind. *)
Inductive MessageEntry : Type :=
| Leaf (text : string)
| Namespace (entries : list (string * MessageEntry)).

Definition Messages : Type := list (string * MessageEntry).

(** The JavaScript values that reach a [messages] slot: a message object,
    [undefined], or a member that an object literal inherits from
    [Object.prototype] (a function, or the prototype object itself for
    [__proto__]). *)
Inductive JsValue : Type :=
| JsUndefined
| JsMessages (m : Messages)
| JsInherited (member : string).

(** [ToBoolean]: objects and functions are truthy, [undefined] is not. *)
Definition truthy (v : JsValue) : bool :=
  match v with
  | JsUndefined => false
  | JsMessages _ => true
  | JsInherited _ => true
  end.

(** [a || b] *)
Definition js_or (a b : JsValue) : JsValue := if truthy a then a else b.

(** React elements, as far as the three files build them. *)
Inductive PropValue : Type :=
| PString (s : string)
| PBool (b : bool)
| PValue (v : JsValue)
| PTranslations (t : gmap string string)
| PContext (locale : string) (messages : JsValue) (isLoading : bool).

Inductive ReactNode : Type :=
| Text (s : string)
| Element (type : string) (props : list (string * PropValue))
          (children : list ReactNode).

(** Attribute lookup on the root element of a tree. *)
Fixpoint assoc {V : Type} (key : string) (kvs : list (string * V)) : option V :=
  match kvs with
  | [] => None
  | (k, v) :: rest => if String.eqb k key then Some v else assoc key rest
  end.

Definition prop (key : string) (node : ReactNode) : option PropValue :=
  match node with
  | Text _ => None
  | Element _ props _ => assoc key props
  end.

(** [Array.prototype.includes] on an array of strings. *)
Definition includes (xs : list string) (x : string) : bool :=
  existsb (String.eqb x) xs.

(** ** app/[locale]/layout.tsx *)
Module Layout.

(** What [cookieStore.get] returns when the cookie is there. *)
Record Cookie : Type := { value : string }.

(** A thrown [Error] object, read through [name], [message] and [stack]. *)
Record JsError : Type := { name : string; message : string; stack : string }.

(** What a [throw] carries: the signal raised by [notFound()] of
    next/navigation, an [Error] object, or [null] / [undefined] (a promise
    may reject with either). *)
Inductive Thrown : Type :=
| NEXT_NOT_FOUND
| Rejected (e : JsError)
| Nullish.

Inductive Completion (A : Type) : Type :=
| Normal (a : A)
| Abrupt (x : Thrown).
Arguments Normal {A} a.
Arguments Abrupt {A} x.

(** Arguments of one [console.error] call. *)
Inductive LogArg : Type :=
| LogText (s : string)
| LogThrown (x : Thrown)
| LogObject (fields : list (string * string)).

(** Calls that leave the function. *)
Inductive Event : Type :=
| CookiesGet (cookie : string)
| GetMessages (locale : string)
| ConsoleError (args : list LogArg).

Record World : Type := {
  cookieStore : gmap string Cookie;
  messageLoader : string -> Messages + Thrown;
  events : list Event
}.

Definition record (ev : Event) (w : World) : World :=
  {| cookieStore := cookieStore w;
     messageLoader := messageLoader w;
     events := events w ++ [ev] |}.

(** An awaited computation: runs in a world, completes normally or throws. *)
Definition Async (A : Type) : Type := World -> Completion A * World.

Definition ret {A : Type} (a : A) : Async A := fun w => (Normal a, w).

Definition bind {A B : Type} (m : Async A) (k : A -> Async B) : Async B :=
  fun w =>
    match m w with
    | (Normal a, w') => k a w'
    | (Abrupt x, w') => (Abrupt x, w')
    end.

Definition throw {A : Type} (x : Thrown) : Async A := fun w => (Abrupt x, w).

(** [try { body } catch (error) { handler }] *)
Definition try_catch {A : Type} (body : Async A) (handler : Thrown -> Async A)
  : Async A :=
  fun w =>
    match body w with
    | (Normal a, w') => (Normal a, w')
    | (Abrupt x, w') => handler x w'
    end.

Notation "'let*' x ':=' m 'in' k" := (bind m (fun x => k))
  (at level 10, x name, m at level 100, k at level 200).
Notation "'run' m 'then' k" := (bind m (fun _ => k))
  (at level 10, m at level 100, k at level 200).

(** [cookieStore.get(name)] *)
Definition cookies_get (cookie : string) : Async (option Cookie) :=
  fun w => (Normal (cookieStore w !! cookie), record (CookiesGet cookie) w).

(** [getMessages({ locale })] *)
Definition getMessages (locale : string) : Async Messages :=
  fun w =>
    match messageLoader w locale with
    | inl messages => (Normal messages, record (GetMessages locale) w)
    | inr error => (Abrupt error, record (GetMessages locale) w)
    end.

(** [console.error(...args)] *)
Definition console_error (args : list LogArg) : Async unit :=
  fun w => (Normal tt, record (ConsoleError args) w).

(** [notFound()] of next/navigation: never returns. *)
Definition notFound {A : Type} : Async A := throw NEXT_NOT_FOUND.

(** [authCookie?.value === 'true'] *)
Definition isAuthenticated (authCookie : option Cookie) : bool :=
  match authCookie with
  | Some c => String.eqb (value c) "true"
  | None => false
  end.

(** What a run added to the call log. *)
Definition emitted (before after : World) : list Event :=
  drop (List.length (events before)) (events after).

Definition loader_calls (evs : list Event) : list string :=
  omap (fun ev => match ev with GetMessages l => Some l | _ => None end) evs.

Definition console_lines (evs : list Event) : list (list LogArg) :=
  omap (fun ev => match ev with ConsoleError args => Some args | _ => None end)
       evs.

Fixpoint node_size (node : ReactNode) : nat :=
  match node with
  | Text _ => 1
  | Element _ _ children => S (list_sum (List.map node_size children))
  end.

Section WithConfig.

(** [routing.locales] of [@/i18n/config], [AUTH_COOKIE_NAME] of
    [@/middleware/auth] and [fontVariables] of [@/lib/fonts] are imported
    constants. *)
Variable locales : list string.
Variable AUTH_COOKIE_NAME : string.
Variable fontVariables : string.

(** The [Error] object that [notFound()] throws, as seen by a handler that
    reads its [name], [message] and [stack]. *)
Variable notFoundError : JsError.

(** The [TypeError] the engine raises when a property of [null] or
    [undefined] is read. *)
Variable typeError : JsError.

(** [(error as Error)]: the cast checks nothing. The object whose [name],
    [message] and [stack] can be read, when the thrown value has properties
    at all. *)
Definition as_Error (error : Thrown) : option JsError :=
  match error with
  | NEXT_NOT_FOUND => Some notFoundError
  | Rejected e => Some e
  | Nullish => None
  end.

(** The document returned on the unauthenticated path. *)
Definition shell (locale : string) (messages : Messages) (children : ReactNode)
  : ReactNode :=
  Element "html" [("lang", PString locale)]
    [Element "body" [("className", PString fontVariables)]
      [Element "NextIntlClientProvider"
         [("messages", PValue (JsMessages messages))]
        [Element "SmoothScroll" []
          [Element "ThemeProvider" []
            [Element "ThemeReset" [] [];
             Element "AuthToggle" [] [];
             Element "Header" [] [];
             Element "FadeIn" [] [children];
             Element "Footer" [] []]]]]].

Definition error_line (error : Thrown) : list LogArg :=
  [LogText "❌ [layout.tsx] Error in LocaleLayout:"; LogThrown error].

Definition details_line (e : JsError) : list LogArg :=
  [LogText "❌ [layout.tsx] Error details:";
   LogObject [("name", name e); ("message", message e); ("stack", stack e)]].

(** The arguments of the second [console.error] call are evaluated before
    the call: reading [.name] off [null] or [undefined] throws there, and
    nothing in the [catch] block catches it. *)
Definition error_details (error : Thrown) : Async (list LogArg) :=
  match as_Error error with
  | Some e => ret (details_line e)
  | None => throw (Rejected typeError)
  end.

Definition LocaleLayout (children : ReactNode) (locale : string)
  : Async ReactNode :=
  let* authCookie := cookies_get AUTH_COOKIE_NAME in
  let isAuth := isAuthenticated authCookie in
  run (if negb (includes locales locale) then notFound else ret tt) then
  if isAuth then ret children
  else
    try_catch
      (let* messages := getMessages locale in
       ret (shell locale messages children))
      (fun error =>
         run console_error (error_line error) then
         let* details := error_details error in
         run console_error details then
         notFound).

(** [AuthenticationState] of a request. *)
Definition AuthenticationState (w : World) : bool :=
  isAuthenticated (cookieStore w !! AUTH_COOKIE_NAME).

(** The three [RenderOutcome]s, as completions of [LocaleLayout]. *)
Definition NotFound : Completion ReactNode := Abrupt NEXT_NOT_FOUND.

Definition PassThrough (children : ReactNode) : Completion ReactNode :=
  Normal children.

Definition Shell (children : ReactNode) (bundle : Messages) (locale : string)
  : Completion ReactNode :=
  Normal (shell locale bundle children).

End WithConfig.

End Layout.

(** Sample requests, used to run the layout on concrete inputs. *)
Module Samples.
Import Layout.

Definition locales : list string := ["en"; "es"].
Definition AUTH_COOKIE_NAME : string := "auth".
Definition fontVariables : string := "font-sans".

Definition notFoundError : JsError :=
  {| name := "Error"; message := "NEXT_NOT_FOUND"; stack := "" |}.

Definition typeError : JsError :=
  {| name := "TypeError";
     message := "Cannot read properties of null (reading 'name')";
     stack := "" |}.

Definition enBundle : Messages :=
  [("metadata", Namespace [("title", Leaf "Todd")])].

Definition missingBundle : JsError :=
  {| name := "Error";
     message := "Cannot find module ./messages/es.json";
     stack := "Error: Cannot find module ./messages/es.json at request.ts" |}.

(** A loader that has the English bundle only. *)
Definition loader (locale : string) : Messages + Thrown :=
  if String.eqb locale "en" then inl enBundle
  else inr (Rejected missingBundle).

Definition anonymous : World :=
  {| cookieStore := ∅; messageLoader := loader; events := [] |}.

Definition signedIn : World :=
  {| cookieStore := {[ AUTH_COOKIE_NAME := {| value := "true" |} ]};
     messageLoader := loader;
     events := [] |}.

(** A request without the authentication cookie, in a world that already
    has another cookie and an older log line. *)
Definition returning : World :=
  {| cookieStore := {[ "theme" := {| value := "dark" |} ]};
     messageLoader := loader;
     events := [ConsoleError [LogText "earlier request"]] |}.

(** A request without the authentication cookie, whose loader rejects
    with [null]. *)
Definition rejectedWithNull : World :=
  {| cookieStore := ∅; messageLoader := fun _ => inr Nullish; events := [] |}.

Definition page : ReactNode := Element "main" [] [Text "Welcome"].

Definition layout : ReactNode -> string -> Async ReactNode :=
  LocaleLayout locales AUTH_COOKIE_NAME fontVariables notFoundError typeError.

End Samples.

(** ** test/test-utils.tsx *)
Module TestUtils.

(** The property names every object literal inherits from
    [Object.prototype]. *)
Definition Object_prototype : list string :=
  ["constructor"; "__defineGetter__"; "__defineSetter__"; "hasOwnProperty";
   "__lookupGetter__"; "__lookupSetter__"; "isPrototypeOf";
   "propertyIsEnumerable"; "toString"; "valueOf"; "__proto__";
   "toLocaleString"].

(** [obj[key]] on an object literal with the given own properties: the own
    property if there is one, else what the prototype has under that name,
    else [undefined]. *)
Definition get (own : gmap string Messages) (key : string) : JsValue :=
  match own !! key with
  | Some m => JsMessages m
  | None =>
      if includes Object_prototype key then JsInherited key else JsUndefined
  end.

Record AllTheProvidersProps : Type := {
  children : ReactNode;
  translations : option (gmap string string);
  isLoading : option bool;
  locale : option string;
  useNextIntl : option bool
}.

(** The data fields of the object [mockLocaleContext] returns (the mocked
    functions and the closure [t] are not part of the model). *)
Record LocaleContextValue : Type := {
  ctx_locale : string;
  ctx_messages : JsValue;
  ctx_isLoading : bool
}.

Section WithMessages.

(** [@/messages/en.json] and [@/messages/es.json]. *)
Variable enMessages : Messages.
Variable esMessages : Messages.

Definition messageMap : gmap string Messages :=
  <["es" := esMessages]> (<["en" := enMessages]> ∅).

Definition getMessagesForLocale (locale : string) : JsValue :=
  js_or (get messageMap locale) (JsMessages enMessages).

Definition mockLocaleContext (locale : option string)
    (customTranslations : option (gmap string string))
    (isLoading : option bool) : LocaleContextValue :=
  let locale := default "en" locale in
  let isLoading := default false isLoading in
  let actualMessages := getMessagesForLocale locale in
  {| ctx_locale := locale;
     ctx_messages := actualMessages;
     ctx_isLoading := isLoading |}.

Definition MockLocaleProvider (children : ReactNode) (locale : option string)
    (translations : option (gmap string string)) (isLoading : option bool)
  : ReactNode :=
  let locale := Some (default "en" locale) in
  let translations := Some (default ∅ translations) in
  let isLoading := Some (default false isLoading) in
  let context := mockLocaleContext locale translations isLoading in
  Element "LocaleContext.Provider"
    [("value", PContext (ctx_locale context) (ctx_messages context)
                        (ctx_isLoading context))]
    [children].

Definition AllTheProviders (props : AllTheProvidersProps) : ReactNode :=
  let translations := default ∅ (translations props) in
  let isLoading := default false (isLoading props) in
  let locale := default "en" (locale props) in
  let useNextIntl := default true (useNextIntl props) in
  if useNextIntl then
    let messages := js_or (get messageMap locale) (JsMessages enMessages) in
    Element "NextIntlClientProvider"
      [("locale", PString locale); ("messages", PValue messages)]
      [Element "ThemeProvider" [] [children props]]
  else
    Element "ThemeProvider" []
      [Element "MockLocaleProvider"
         [("locale", PString locale);
          ("translations", PTranslations translations);
          ("isLoading", PBool isLoading)]
         [children props]].

End WithMessages.

End TestUtils.

(** ** components/common/latest-news-table *)
Module NewsTable.

(** The fields of [NewsCardProps] that the table reads. *)
Record NewsCardProps : Type := {
  title : string;
  source : string;
  date : string;
  link : string
}.

(** One rendered grid row. *)
Record Row : Type := {
  row_key : string;
  row_title : string;
  row_href : string;
  row_label : string;
  row_source : string;
  row_date : string;
  row_border : bool
}.

(** What one render pass puts on the page. *)
Record View : Type := {
  rows : list Row;
  loadMore : bool
}.

(** [useState(3)] *)
Definition initialVisibleCount : nat := 3.

(** [setVisibleCount((prev) => prev + 3)] *)
Definition handleLoadMore (prev : nat) : nat := prev + 3.

Section WithLocale.

(** [new Date(iso).toLocaleDateString(locale, { year, month, day })] and
    the value of [useLocale()]. *)
Variable toLocaleDateString : string -> string -> string.
Variable locale : string.

Definition row (items : list NewsCardProps) (visibleCount : nat)
    (index : nat) (item : NewsCardProps) : Row :=
  {| row_key := title item;
     row_title := title item;
     row_href := link item;
     row_label := "Open " +:+ title item +:+ " in new tab";
     row_source := source item;
     row_date := toLocaleDateString (date item +:+ "T00:00:00") locale;
     row_border :=
       negb (Z.of_nat index =? Z.of_nat visibleCount - 1)%Z
       && negb (Z.of_nat index =? Z.of_nat (List.length items) - 1)%Z |}.

Definition LatestNewsTable (items : list NewsCardProps) (visibleCount : nat)
  : View :=
  let isAllShown := (List.length items <=? visibleCount)%nat in
  {| rows := imap (row items visibleCount) (take visibleCount items);
     loadMore := negb isAllShown |}.

End WithLocale.

(** The component's state after a number of activations of the control. *)
Fixpoint visibleCount_after (clicks : nat) : nat :=
  match clicks with
  | O => initialVisibleCount
  | S n => handleLoadMore (visibleCount_after n)
  end.

End NewsTable.

(** ** app/[locale]/layout.tsx: static params and metadata *)
Module Routes.

(** [{ locale }] *)
Record StaticParam : Type := { param_locale : string }.

Record Title : Type := { title_default : string; title_template : string }.

Record Alternates : Type := {
  canonical : string;
  languages : gmap string string
}.

Record OpenGraph : Type := {
  og_title : string;
  og_description : string;
  og_url : string;
  og_siteName : string;
  og_locale : string;
  og_type : string
}.

Record Twitter : Type := {
  tw_card : string;
  tw_title : string;
  tw_description : string
}.

(** [Object.fromEntries]: entries are written in order, a later entry
    replaces an earlier one with the same key. *)
Definition fromEntries (entries : list (string * string)) : gmap string string :=
  fold_left (fun object entry => <[entry.1 := entry.2]> object) entries ∅.

Section WithRouting.

(** [routing.locales] and [routing.defaultLocale] of [@/i18n/config],
    [env.baseUrl] of [@/lib/env]; the translator that
    [getTranslations({ locale, namespace })] resolves to, as a function of
    locale, namespace and key; and the [URL] constructor. *)
Variable locales : list string.
Variable defaultLocale : string.
Variable baseUrl : string.
Variable getTranslations : string -> string -> string -> string.
Variable URL : Type.
Variable new_URL : string -> URL.

Record Metadata : Type := {
  title : Title;
  description : string;
  metadataBase : URL;
  alternates : Alternates;
  openGraph : OpenGraph;
  twitter : Twitter
}.

Definition generateStaticParams : list StaticParam :=
  (fun locale => {| param_locale := locale |}) <$> locales.

Definition generateMetadata (locale : string) : Metadata :=
  let t := getTranslations locale "metadata" in
  {| title := {| title_default := t "title";
                 title_template := "%s | " +:+ t "title" |};
     description := t "description";
     metadataBase := new_URL baseUrl;
     alternates :=
       {| canonical := baseUrl +:+ "/" +:+ locale;
          languages :=
            fromEntries
              (((fun loc => (loc, baseUrl +:+ "/" +:+ loc)) <$> locales)
               ++ [("x-default", baseUrl +:+ "/" +:+ defaultLocale)]) |};
     openGraph :=
       {| og_title := t "title";
          og_description := t "description";
          og_url := baseUrl +:+ "/" +:+ locale;
          og_siteName := "Todd Agriscience";
          og_locale := locale;
          og_type := "website" |};
     twitter :=
       {| tw_card := "summary_large_image";
          tw_title := t "title";
          tw_description := t "description" |} |}.

End WithRouting.

End Routes.

(** ** The news table under repeated activations of its control *)
Module NewsTableClicks.
Import NewsTable.

Section WithLocale.

Variable toLocaleDateString : string -> string -> string.
Variable locale : string.

(** One user action on the table: the [onClick] handler runs when the
    control is on the page; when it is not rendered there is nothing to
    activate and the state stays. *)
Definition click (items : list NewsCardProps) (visibleCount : nat) : nat :=
  if loadMore (LatestNewsTable toLocaleDateString locale items visibleCount)
  then handleLoadMore visibleCount
  else visibleCount.

(** The state after a number of user actions, from the initial render. *)
Fixpoint clicks (items : list NewsCardProps) (n : nat) : nat :=
  match n with
  | O => initialVisibleCount
  | S n' => click items (clicks items n')
  end.

End WithLocale.

End NewsTableClicks.

(** ** test/test-utils.tsx: the translation function of the mocked context *)
Module Translate.
Import TestUtils.

(** The objects a lookup can be standing on: a plain object with the given
    own properties (a message object or one of its namespaces), or
    [Object.prototype]. *)
Inductive Obj : Type :=
| Plain (own : Messages)
| ObjectPrototype.

(** The values a lookup can produce. *)
Inductive Val : Type :=
| VUndefined
| VNull
| VString (s : string)
| VFunction (member : string)
| VObject (o : Obj).

Definition of_entry (entry : MessageEntry) : Val :=
  match entry with
  | Leaf text => VString text
  | Namespace entries => VObject (Plain entries)
  end.

(** [ToBoolean] *)
Definition is_true (v : Val) : bool :=
  match v with
  | VUndefined | VNull => false
  | VString s => negb (String.eqb s "")
  | VFunction _ | VObject _ => true
  end.

(** What a plain object finds on its prototype chain under a name it does
    not own: [__proto__] reads back [Object.prototype], the other members
    are functions. *)
Definition inherited (key : string) : Val :=
  if String.eqb key "__proto__" then VObject ObjectPrototype
  else if includes Object_prototype key then VFunction key
  else VUndefined.

(** [o[key]] *)
Definition get (o : Obj) (key : string) : Val :=
  match o with
  | Plain own =>
      match assoc key own with
      | Some entry => of_entry entry
      | None => inherited key
      end
  | ObjectPrototype =>
      if String.eqb key "__proto__" then VNull
      else if includes Object_prototype key then VFunction key
      else VUndefined
  end.

(** [key in o] *)
Definition has (o : Obj) (key : string) : bool :=
  match o with
  | Plain own =>
      match assoc key own with
      | Some _ => true
      | None => includes Object_prototype key
      end
  | ObjectPrototype => includes Object_prototype key
  end.

(** [s.split('.')] *)
Fixpoint split (s : string) : list string :=
  match s with
  | EmptyString => [""]
  | String c rest =>
      if Ascii.eqb c "."%char then "" :: split rest
      else match split rest with
           | first :: others => String c first :: others
           | [] => [String c ""]
           end
  end.

(** [parts.join('.')] *)
Definition join (parts : list string) : string := String.concat "." parts.

(** The reducer of [getNestedValue]. *)
Definition step (current : Val) (segment : string) : Val :=
  match current with
  | VObject o => if has o segment then get o segment else VUndefined
  | _ => VUndefined
  end.

Definition getNestedValue (obj : Obj) (key : string) : Val :=
  fold_left step (split key) (VObject obj).

(** [customTranslations[key]] on the overrides object. *)
Definition override (customTranslations : gmap string string) (key : string)
  : Val :=
  match customTranslations !! key with
  | Some s => VString s
  | None => inherited key
  end.

(** The function [t] of [mockLocaleContext], for the overrides and the
    message object it closes over. *)
Definition t (customTranslations : gmap string string)
    (actualMessages : Messages) (key : string) : Val :=
  if is_true (override customTranslations key)
  then override customTranslations key
  else
    let parts := split key in
    if (2 <=? List.length parts)%nat then
      let namespace := hd "" parts in
      let messageKey := join (tl parts) in
      let namespaceMessages := get (Plain actualMessages) namespace in
      match namespaceMessages with
      | VObject o =>
          let translation := getNestedValue o messageKey in
          match translation with
          | VString s => if is_true translation then translation else VString key
          | _ => VString key
          end
      | _ => VString key
      end
    else VString key.

(** A string without a dot. *)
Fixpoint dotfree (s : string) : bool :=
  match s with
  | EmptyString => true
  | String c rest => negb (Ascii.eqb c "."%char) && dotfree rest
  end.

End Translate.

(** Sample messages and overrides for the mocked translation function. *)
Module TranslateSamples.

Definition messages : Messages :=
  [("homepage", Namespace [("welcome", Leaf "Welcome to Todd");
                           ("hero", Namespace [("cta", Leaf "Join us")]);
                           ("blank", Leaf "")]);
   ("title", Leaf "Todd")].

Definition overrides : gmap string string :=
  {[ "homepage.welcome" := "Hello" ]}.

End TranslateSamples.

(** Sample routing configuration and news items. *)
Module RoutesSamples.

Definition defaultLocale : string := "en".
Definition baseUrl : string := "https://toddagriscience.example".

Definition getTranslations (locale namespace key : string) : string :=
  namespace +:+ "." +:+ key +:+ "@" +:+ locale.

Definition metadata (locale : string) : Routes.Metadata string :=
  Routes.generateMetadata Samples.locales defaultLocale baseUrl getTranslations
    string (fun href => href) locale.

End RoutesSamples.

Module NewsSamples.
Import NewsTable.

Definition item (n : string) : NewsCardProps :=
  {| title := "Story " +:+ n;
     source := "Todd Times";
     date := "2025-04-1" +:+ n;
     link := "/news/" +:+ n |}.

Definition items : list NewsCardProps :=
  [item "1"; item "2"; item "3"; item "4"; item "5"].

Definition toLocaleDateString (iso locale : string) : string :=
  iso +:+ " (" +:+ locale +:+ ")".

Definition table (visibleCount : nat) : View :=
  LatestNewsTable toLocaleDateString "en" items visibleCount.

End NewsSamples.

(** * Properties *)

Lemma includes_true (xs : list string) (x : string) :
  includes xs x = true <-> x ∈ xs.
Proof.
  unfold includes. rewrite existsb_exists, list_elem_of_In. split.
  - intros (y & Hy & Heq). apply String.eqb_eq in Heq. now subst.
  - intros Hin. exists x. split; [exact Hin | apply String.eqb_refl].
Qed.

Lemma includes_false (xs : list string) (x : string) :
  includes xs x = false <-> x ∉ xs.
Proof.
  rewrite <- includes_true. destruct (includes xs x); split.
  - discriminate.
  - intros H. now contradiction H.
  - intros _ H. discriminate.
  - reflexivity.
Qed.


(** ** Properties of [LocaleLayout] *)
Module LayoutSpec.
Import Layout.

Lemma events_record (ev : Event) (w : World) :
  events (record ev w) = events w ++ [ev].
Proof. reflexivity. Qed.

Lemma emitted_app (w w' : World) (evs : list Event) :
  events w' = events w ++ evs -> emitted w w' = evs.
Proof. intros H. unfold emitted. rewrite H. apply drop_app_length. Qed.

Ltac emitted_by_run :=
  apply emitted_app; simpl; rewrite <- ?app_assoc; reflexivity.

Lemma isAuthenticated_true (authCookie : option Cookie) :
  isAuthenticated authCookie = true
  <-> exists c, authCookie = Some c /\ value c = "true".
Proof.
  destruct authCookie as [c|]; simpl; split.
  - intros H. apply String.eqb_eq in H. now exists c.
  - intros (c' & [= ->] & H). now apply String.eqb_eq.
  - discriminate.
  - intros (c' & H & _). discriminate.
Qed.

Lemma node_size_pos (node : ReactNode) : 0 < node_size node.
Proof. destruct node; simpl; lia. Qed.

Section WithConfig.

Variable locales : list string.
Variable AUTH_COOKIE_NAME : string.
Variable fontVariables : string.
Variable notFoundError : JsError.
Variable typeError : JsError.

Local Abbreviation LocaleLayout :=
  (LocaleLayout locales AUTH_COOKIE_NAME fontVariables notFoundError typeError).
Local Abbreviation AuthenticationState := (AuthenticationState AUTH_COOKIE_NAME).
Local Abbreviation shell := (shell fontVariables).
Local Abbreviation Shell := (Shell fontVariables).
Local Abbreviation as_Error := (as_Error notFoundError).

(** The five paths through the function, one equation each. *)
Lemma LocaleLayout_invalid children locale w :
  includes locales locale = false ->
  LocaleLayout children locale w
  = (NotFound, record (CookiesGet AUTH_COOKIE_NAME) w).
Proof.
  intros Hinc. unfold Layout.LocaleLayout, bind, cookies_get. simpl.
  rewrite Hinc. reflexivity.
Qed.

Lemma LocaleLayout_authenticated children locale w :
  includes locales locale = true ->
  AuthenticationState w = true ->
  LocaleLayout children locale w
  = (PassThrough children, record (CookiesGet AUTH_COOKIE_NAME) w).
Proof.
  intros Hinc Hauth. unfold Layout.LocaleLayout, bind, cookies_get. simpl.
  rewrite Hinc. simpl. unfold Layout.AuthenticationState in Hauth.
  rewrite Hauth. reflexivity.
Qed.

Lemma LocaleLayout_loaded children locale w bundle :
  includes locales locale = true ->
  AuthenticationState w = false ->
  messageLoader w locale = inl bundle ->
  LocaleLayout children locale w
  = (Shell children bundle locale,
     record (GetMessages locale) (record (CookiesGet AUTH_COOKIE_NAME) w)).
Proof.
  intros Hinc Hauth Hload. unfold Layout.LocaleLayout, bind, cookies_get.
  simpl. rewrite Hinc. simpl. unfold Layout.AuthenticationState in Hauth.
  rewrite Hauth. unfold try_catch, bind, getMessages. simpl.
  rewrite Hload. reflexivity.
Qed.

Lemma LocaleLayout_rejected children locale w error e :
  includes locales locale = true ->
  AuthenticationState w = false ->
  messageLoader w locale = inr error ->
  as_Error error = Some e ->
  LocaleLayout children locale w
  = (NotFound,
     record (ConsoleError (details_line e))
       (record (ConsoleError (error_line error))
          (record (GetMessages locale)
             (record (CookiesGet AUTH_COOKIE_NAME) w)))).
Proof.
  intros Hinc Hauth Hload Herr.
  unfold Layout.LocaleLayout, bind, cookies_get.
  simpl. rewrite Hinc. simpl. unfold Layout.AuthenticationState in Hauth.
  rewrite Hauth. unfold try_catch, bind, getMessages. simpl.
  rewrite Hload. simpl. unfold error_details. rewrite Herr. reflexivity.
Qed.

Lemma LocaleLayout_nullish children locale w :
  includes locales locale = true ->
  AuthenticationState w = false ->
  messageLoader w locale = inr Nullish ->
  LocaleLayout children locale w
  = (Abrupt (Rejected typeError),
     record (ConsoleError (error_line Nullish))
       (record (GetMessages locale)
          (record (CookiesGet AUTH_COOKIE_NAME) w))).
Proof.
  intros Hinc Hauth Hload.
  unfold Layout.LocaleLayout, bind, cookies_get.
  simpl. rewrite Hinc. simpl. unfold Layout.AuthenticationState in Hauth.
  rewrite Hauth. unfold try_catch, bind, getMessages. simpl.
  rewrite Hload. reflexivity.
Qed.

Lemma shell_inj l1 b1 c1 l2 b2 c2 :
  shell l1 b1 c1 = shell l2 b2 c2 -> l1 = l2 /\ b1 = b2 /\ c1 = c2.
Proof. unfold Layout.shell. intros H. now inversion H. Qed.

Lemma shell_size locale bundle children :
  node_size children < node_size (shell locale bundle children).
Proof. unfold Layout.shell. simpl. lia. Qed.

Lemma shell_not_children locale bundle children :
  shell locale bundle children <> children.
Proof.
  intros H. pose proof (shell_size locale bundle children) as Hlt.
  rewrite H in Hlt. lia.
Qed.

(** C1. A locale outside [routing.locales] ends in the not-found signal in
    every world, whatever the cookie store holds; the only call made before
    it is the cookie read, so neither the loader nor the console is reached. *)
Theorem invalid_locale_not_found children locale w :
  locale ∉ locales ->
  fst (LocaleLayout children locale w) = NotFound
  /\ emitted w (snd (LocaleLayout children locale w))
     = [CookiesGet AUTH_COOKIE_NAME].
Proof.
  intros Hout. apply includes_false in Hout.
  rewrite (LocaleLayout_invalid _ _ _ Hout). split; [reflexivity|].
  emitted_by_run.
Qed.

(** C2. For a supported locale and an authentication cookie whose value is
    ["true"], the children come back unchanged and the run makes no call to
    [getMessages]. *)
Theorem authenticated_pass_through children locale w c :
  locale ∈ locales ->
  cookieStore w !! AUTH_COOKIE_NAME = Some c ->
  value c = "true" ->
  fst (LocaleLayout children locale w) = PassThrough children
  /\ loader_calls (emitted w (snd (LocaleLayout children locale w))) = [].
Proof.
  intros Hin Hcookie Hval. apply includes_true in Hin.
  assert (Hauth : AuthenticationState w = true).
  { unfold Layout.AuthenticationState. apply isAuthenticated_true. eauto. }
  rewrite (LocaleLayout_authenticated _ _ _ Hin Hauth).
  split; [reflexivity|].
  replace (emitted w _) with [CookiesGet AUTH_COOKIE_NAME]; [reflexivity|].
  symmetry. emitted_by_run.
Qed.

(** C3. For a supported locale without authentication, a load that yields
    bundle [B] makes the result the shell document: its [lang] attribute is
    the requested locale, and it determines the bundle, the locale and the
    children it was built from. *)
Theorem bundle_success_shell children locale w B :
  locale ∈ locales ->
  AuthenticationState w = false ->
  messageLoader w locale = inl B ->
  fst (LocaleLayout children locale w) = Shell children B locale
  /\ prop "lang" (shell locale B children) = Some (PString locale)
  /\ (forall children' B' locale',
        Shell children' B' locale' = Shell children B locale ->
        children' = children /\ B' = B /\ locale' = locale).
Proof.
  intros Hin Hauth Hload. apply includes_true in Hin.
  rewrite (LocaleLayout_loaded _ _ _ _ Hin Hauth Hload).
  split; [reflexivity|]. split; [reflexivity|].
  intros c' B' l' Heq. unfold Layout.Shell in Heq.
  assert (Hsh : shell l' B' c' = shell locale B children) by congruence.
  apply shell_inj in Hsh. tauto.
Qed.

(** C4, as the code has it. For a supported locale without authentication, a
    load that throws [e] ends in the not-found signal after exactly two
    [console.error] lines: the first carries the thrown value itself, the
    second is the one details line and holds the name, the message and the
    stack of [e]. *)
Theorem bundle_failure_not_found_logged children locale w e :
  locale ∈ locales ->
  AuthenticationState w = false ->
  messageLoader w locale = inr (Rejected e) ->
  fst (LocaleLayout children locale w) = NotFound
  /\ console_lines (emitted w (snd (LocaleLayout children locale w)))
     = [ [LogText "❌ [layout.tsx] Error in LocaleLayout:";
          LogThrown (Rejected e)];
         [LogText "❌ [layout.tsx] Error details:";
          LogObject [("name", name e); ("message", message e);
                     ("stack", stack e)]] ].
Proof.
  intros Hin Hauth Hload. apply includes_true in Hin.
  rewrite (LocaleLayout_rejected _ _ _ _ e Hin Hauth Hload eq_refl).
  split; [reflexivity|].
  replace (emitted w _)
    with [CookiesGet AUTH_COOKIE_NAME; GetMessages locale;
          ConsoleError (error_line (Rejected e));
          ConsoleError (details_line e)]; [reflexivity|].
  symmetry. emitted_by_run.
Qed.

Lemma LocaleLayout_paths children locale w :
  (includes locales locale = false /\
   LocaleLayout children locale w
   = (NotFound, record (CookiesGet AUTH_COOKIE_NAME) w))
  \/ (includes locales locale = true /\ AuthenticationState w = true /\
      LocaleLayout children locale w
      = (PassThrough children, record (CookiesGet AUTH_COOKIE_NAME) w))
  \/ (exists B,
       includes locales locale = true /\ AuthenticationState w = false /\
       messageLoader w locale = inl B /\
       LocaleLayout children locale w
       = (Shell children B locale,
          record (GetMessages locale)
            (record (CookiesGet AUTH_COOKIE_NAME) w)))
  \/ (exists error e,
       includes locales locale = true /\ AuthenticationState w = false /\
       messageLoader w locale = inr error /\ as_Error error = Some e /\
       LocaleLayout children locale w
       = (NotFound,
          record (ConsoleError (details_line e))
            (record (ConsoleError (error_line error))
               (record (GetMessages locale)
                  (record (CookiesGet AUTH_COOKIE_NAME) w)))))
  \/ (includes locales locale = true /\ AuthenticationState w = false /\
      messageLoader w locale = inr Nullish /\
      LocaleLayout children locale w
      = (Abrupt (Rejected typeError),
         record (ConsoleError (error_line Nullish))
           (record (GetMessages locale)
              (record (CookiesGet AUTH_COOKIE_NAME) w)))).
Proof.
  destruct (includes locales locale) eqn:Hinc.
  - destruct (AuthenticationState w) eqn:Hauth.
    + right; left. auto using LocaleLayout_authenticated.
    + destruct (messageLoader w locale) as [B|error] eqn:Hload.
      * right; right; left. exists B. auto using LocaleLayout_loaded.
      * destruct (as_Error error) as [e|] eqn:Herr.
        -- right; right; right; left. exists error, e.
           auto 6 using LocaleLayout_rejected.
        -- destruct error; try discriminate Herr.
           right; right; right; right. auto using LocaleLayout_nullish.
  - left. auto using LocaleLayout_invalid.
Qed.

Ltac on_each_path H :=
  destruct H
    as [[Hi Hrun]
       |[(Hi & Ha & Hrun)
        |[(B0 & Hi & Ha & Hl & Hrun)
         |[(x0 & e0 & Hi & Ha & Hl & He & Hrun)
          |(Hi & Ha & Hl & Hrun)]]]].

Lemma PassThrough_not_Shell children B l :
  PassThrough children <> Shell children B l.
Proof.
  intros H. unfold Layout.PassThrough, Layout.Shell in H.
  injection H as H. symmetry in H. now apply shell_not_children in H.
Qed.

(** C5, where the code departs from it. On a supported locale without
    authentication, a loader that rejects with [null] or [undefined] does
    not end in the not-found signal: reading [.name] off the caught value
    throws, and the caller gets that [TypeError], which is none of NotFound,
    PassThrough and Shell. *)
Theorem nullish_rejection_surfaces_type_error children locale w :
  locale ∈ locales ->
  AuthenticationState w = false ->
  messageLoader w locale = inr Nullish ->
  fst (LocaleLayout children locale w) = Abrupt (Rejected typeError)
  /\ fst (LocaleLayout children locale w) <> NotFound
  /\ fst (LocaleLayout children locale w) <> PassThrough children
  /\ forall B, fst (LocaleLayout children locale w) <> Shell children B locale.
Proof.
  intros Hin Hauth Hload. apply includes_true in Hin.
  rewrite (LocaleLayout_nullish _ _ _ Hin Hauth Hload). simpl.
  split; [reflexivity|]. split; [discriminate|]. split; [discriminate|].
  intros B; discriminate.
Qed.

(** C6. The authentication state of a request is true exactly when the
    cookie store has the authentication cookie and its value is the string
    ["true"]. *)
Theorem authentication_state_iff w :
  AuthenticationState w = true
  <-> exists c, cookieStore w !! AUTH_COOKIE_NAME = Some c /\ value c = "true".
Proof. unfold Layout.AuthenticationState. apply isAuthenticated_true. Qed.

(** C7. Two runs on the same locale and children, in worlds that agree on the
    authentication cookie and on what the loader does for that locale,
    complete with the same value and make the same calls, whatever else the
    two worlds hold; and a run leaves the cookie store and the loader as they
    were, only appending its calls to the log. *)
Theorem deterministic_stateless children locale w1 w2 :
  cookieStore w1 !! AUTH_COOKIE_NAME = cookieStore w2 !! AUTH_COOKIE_NAME ->
  messageLoader w1 locale = messageLoader w2 locale ->
  fst (LocaleLayout children locale w1) = fst (LocaleLayout children locale w2)
  /\ emitted w1 (snd (LocaleLayout children locale w1))
     = emitted w2 (snd (LocaleLayout children locale w2))
  /\ cookieStore (snd (LocaleLayout children locale w1)) = cookieStore w1
  /\ messageLoader (snd (LocaleLayout children locale w1)) = messageLoader w1
  /\ events (snd (LocaleLayout children locale w1))
     = events w1 ++ emitted w1 (snd (LocaleLayout children locale w1)).
Proof.
  intros Hcookie Hload.
  assert (Hauth : AuthenticationState w1 = AuthenticationState w2).
  { unfold Layout.AuthenticationState. now rewrite Hcookie. }
  on_each_path (LocaleLayout_paths children locale w1); rewrite Hrun.
  - rewrite (LocaleLayout_invalid _ _ _ Hi). simpl.
    rewrite !(emitted_app _ _ [CookiesGet AUTH_COOKIE_NAME]) by reflexivity.
    auto.
  - rewrite Hauth in Ha. rewrite (LocaleLayout_authenticated _ _ _ Hi Ha).
    simpl.
    rewrite !(emitted_app _ _ [CookiesGet AUTH_COOKIE_NAME]) by reflexivity.
    auto.
  - rewrite Hauth in Ha. rewrite Hload in Hl.
    rewrite (LocaleLayout_loaded _ _ _ _ Hi Ha Hl). simpl.
    rewrite !(emitted_app _ _ [CookiesGet AUTH_COOKIE_NAME; GetMessages locale])
      by (simpl; rewrite <- ?app_assoc; reflexivity).
    rewrite <- ?app_assoc. auto.
  - rewrite Hauth in Ha. rewrite Hload in Hl.
    rewrite (LocaleLayout_rejected _ _ _ _ _ Hi Ha Hl He). simpl.
    rewrite !(emitted_app _ _
               [CookiesGet AUTH_COOKIE_NAME; GetMessages locale;
                ConsoleError (error_line x0);
                ConsoleError (details_line e0)])
      by (simpl; rewrite <- ?app_assoc; reflexivity).
    rewrite <- ?app_assoc. auto.
  - rewrite Hauth in Ha. rewrite Hload in Hl.
    rewrite (LocaleLayout_nullish _ _ _ Hi Ha Hl). simpl.
    rewrite !(emitted_app _ _
               [CookiesGet AUTH_COOKIE_NAME; GetMessages locale;
                ConsoleError (error_line Nullish)])
      by (simpl; rewrite <- ?app_assoc; reflexivity).
    rewrite <- ?app_assoc. auto.
Qed.

(** C8, where the code departs from it. The loader is called once and
    never again, but when it rejects with [null] or [undefined] the run
    stops after the first log line in a state that is none of NotFound,
    PassThrough and Shell. *)
Theorem nullish_rejection_no_terminal_state children locale w :
  locale ∈ locales ->
  AuthenticationState w = false ->
  messageLoader w locale = inr Nullish ->
  emitted w (snd (LocaleLayout children locale w))
  = [CookiesGet AUTH_COOKIE_NAME; GetMessages locale;
     ConsoleError (error_line Nullish)]
  /\ loader_calls (emitted w (snd (LocaleLayout children locale w)))
     = [locale]
  /\ ~ (fst (LocaleLayout children locale w) = NotFound
        \/ fst (LocaleLayout children locale w) = PassThrough children
        \/ exists B, fst (LocaleLayout children locale w)
                     = Shell children B locale).
Proof.
  intros Hin Hauth Hload. apply includes_true in Hin.
  rewrite (LocaleLayout_nullish _ _ _ Hin Hauth Hload). simpl.
  rewrite (emitted_app _ _
             [CookiesGet AUTH_COOKIE_NAME; GetMessages locale;
              ConsoleError (error_line Nullish)])
    by (simpl; rewrite <- ?app_assoc; reflexivity).
  split; [reflexivity|]. split; [reflexivity|].
  intros [H|[H|[B H]]]; discriminate H.
Qed.

End WithConfig.

Import Samples.

Lemma sample_unsupported : "xx" ∉ locales.
Proof. apply includes_false. reflexivity. Defined.

Lemma sample_supported_es : "es" ∈ locales.
Proof. apply includes_true. reflexivity. Defined.

Lemma sample_supported_en : "en" ∈ locales.
Proof. apply includes_true. reflexivity. Defined.

Lemma sample_anonymous : AuthenticationState AUTH_COOKIE_NAME anonymous = false.
Proof. reflexivity. Defined.

Local Abbreviation run_on children locale w := (layout children locale w).

(** Scenario: locale "xx", cookie "true": not found. *)
Lemma invalid_locale_not_found_sample :
  ("xx" ∉ locales)
  /\ fst (run_on page "xx" signedIn) = NotFound
  /\ emitted signedIn (snd (run_on page "xx" signedIn))
     = [CookiesGet AUTH_COOKIE_NAME].
Proof.
  split; [exact sample_unsupported|].
  apply (invalid_locale_not_found locales AUTH_COOKIE_NAME fontVariables
           notFoundError typeError page "xx" signedIn).
  exact sample_unsupported.
Defined.

(** Scenario: locale "es", cookie "true": the page itself, loader untouched. *)
Lemma authenticated_pass_through_sample :
  ("es" ∈ locales)
  /\ cookieStore signedIn !! AUTH_COOKIE_NAME = Some {| value := "true" |}
  /\ fst (run_on page "es" signedIn) = PassThrough page
  /\ loader_calls (emitted signedIn (snd (run_on page "es" signedIn))) = [].
Proof.
  split; [exact sample_supported_es|].
  split; [vm_compute; reflexivity|].
  apply (authenticated_pass_through locales AUTH_COOKIE_NAME fontVariables
           notFoundError typeError page "es" signedIn {| value := "true" |}).
  - exact sample_supported_es.
  - vm_compute. reflexivity.
  - reflexivity.
Defined.

(** Scenario: locale "en", no cookie: the shell with the English bundle. *)
Lemma bundle_success_shell_sample :
  ("en" ∈ locales)
  /\ AuthenticationState AUTH_COOKIE_NAME anonymous = false
  /\ messageLoader anonymous "en" = inl enBundle
  /\ fst (run_on page "en" anonymous) = Shell fontVariables page enBundle "en"
  /\ prop "lang" (shell fontVariables "en" enBundle page) = Some (PString "en").
Proof.
  split; [exact sample_supported_en|].
  split; [reflexivity|]. split; [reflexivity|].
  destruct (bundle_success_shell locales AUTH_COOKIE_NAME fontVariables
              notFoundError typeError page "en" anonymous enBundle)
    as (Hout & Hlang & _).
  - exact sample_supported_en.
  - reflexivity.
  - reflexivity.
  - split; [exact Hout | exact Hlang].
Defined.

(** Scenario: locale "es", no cookie, the loader throws: not found, after
    two lines on the console. *)
Lemma bundle_failure_not_found_logged_sample :
  ("es" ∈ locales)
  /\ AuthenticationState AUTH_COOKIE_NAME anonymous = false
  /\ messageLoader anonymous "es" = inr (Rejected missingBundle)
  /\ fst (run_on page "es" anonymous) = NotFound
  /\ List.length
       (console_lines (emitted anonymous (snd (run_on page "es" anonymous))))
     = 2.
Proof.
  split; [exact sample_supported_es|].
  split; [reflexivity|]. split; [reflexivity|].
  destruct (bundle_failure_not_found_logged locales AUTH_COOKIE_NAME
              fontVariables notFoundError typeError page "es" anonymous
              missingBundle)
    as (Hout & Hlog).
  - exact sample_supported_es.
  - reflexivity.
  - reflexivity.
  - split; [exact Hout|]. unfold layout. rewrite Hlog. reflexivity.
Defined.

(** The same run, against C4 as worded: the console does not hold exactly
    one line after the failed load. *)
Lemma bundle_failure_more_than_one_line :
  ~ exists line,
      console_lines (emitted anonymous (snd (run_on page "es" anonymous)))
      = [line].
Proof. intros (line & H). vm_compute in H. discriminate H. Qed.

(** Locale "es", no cookie, the loader rejects with null: the caller gets
    the TypeError. *)
Lemma nullish_rejection_surfaces_type_error_sample :
  ("es" ∈ locales)
  /\ AuthenticationState AUTH_COOKIE_NAME rejectedWithNull = false
  /\ messageLoader rejectedWithNull "es" = inr Nullish
  /\ fst (run_on page "es" rejectedWithNull) = Abrupt (Rejected typeError)
  /\ fst (run_on page "es" rejectedWithNull) <> NotFound.
Proof.
  split; [exact sample_supported_es|].
  split; [reflexivity|]. split; [reflexivity|].
  destruct (nullish_rejection_surfaces_type_error locales AUTH_COOKIE_NAME
              fontVariables notFoundError typeError page "es"
              rejectedWithNull)
    as (Hout & Hnf & _).
  - exact sample_supported_es.
  - reflexivity.
  - reflexivity.
  - split; [exact Hout | exact Hnf].
Defined.

(** Two requests without the authentication cookie, one of them in a world
    with another cookie and an older log line: same outcome, same calls. *)
Lemma deterministic_stateless_sample :
  cookieStore anonymous !! AUTH_COOKIE_NAME
  = cookieStore returning !! AUTH_COOKIE_NAME
  /\ messageLoader anonymous "es" = messageLoader returning "es"
  /\ fst (run_on page "es" anonymous) = fst (run_on page "es" returning)
  /\ emitted anonymous (snd (run_on page "es" anonymous))
     = emitted returning (snd (run_on page "es" returning)).
Proof.
  split; [vm_compute; reflexivity|]. split; [reflexivity|].
  destruct (deterministic_stateless locales AUTH_COOKIE_NAME fontVariables
              notFoundError typeError page "es" anonymous returning)
    as (Hout & Hcalls & _).
  - vm_compute. reflexivity.
  - reflexivity.
  - split; [exact Hout | exact Hcalls].
Defined.

Lemma nullish_rejection_no_terminal_state_sample :
  ("es" ∈ locales)
  /\ AuthenticationState AUTH_COOKIE_NAME rejectedWithNull = false
  /\ messageLoader rejectedWithNull "es" = inr Nullish
  /\ loader_calls
       (emitted rejectedWithNull (snd (run_on page "es" rejectedWithNull)))
     = ["es"]
  /\ List.length
       (console_lines
          (emitted rejectedWithNull (snd (run_on page "es" rejectedWithNull))))
     = 1.
Proof.
  split; [exact sample_supported_es|].
  split; [reflexivity|]. split; [reflexivity|].
  destruct (nullish_rejection_no_terminal_state locales AUTH_COOKIE_NAME
              fontVariables notFoundError typeError page "es"
              rejectedWithNull)
    as (Hcalls & Hloads & _).
  - exact sample_supported_es.
  - reflexivity.
  - reflexivity.
  - split; [exact Hloads|]. unfold layout. rewrite Hcalls. reflexivity.
Defined.

End LayoutSpec.

(** ** Properties of the test providers *)
Module TestUtilsSpec.
Import TestUtils.

Section WithMessages.

Variable enMessages : Messages.
Variable esMessages : Messages.

Local Abbreviation messageMap := (messageMap enMessages esMessages).
Local Abbreviation getMessagesForLocale :=
  (getMessagesForLocale enMessages esMessages).
Local Abbreviation AllTheProviders := (AllTheProviders enMessages esMessages).
Local Abbreviation mockLocaleContext :=
  (mockLocaleContext enMessages esMessages).

Lemma messageMap_en : messageMap !! "en" = Some enMessages.
Proof.
  unfold TestUtils.messageMap.
  rewrite lookup_insert_ne by discriminate. apply lookup_insert_eq.
Qed.

Lemma messageMap_es : messageMap !! "es" = Some esMessages.
Proof. unfold TestUtils.messageMap. apply lookup_insert_eq. Qed.

Lemma messageMap_other (locale : string) :
  locale <> "en" -> locale <> "es" -> messageMap !! locale = None.
Proof.
  intros Hen Hes. unfold TestUtils.messageMap.
  rewrite !lookup_insert_ne by congruence. apply lookup_empty.
Qed.

Lemma getMessagesForLocale_en : getMessagesForLocale "en" = JsMessages enMessages.
Proof.
  unfold TestUtils.getMessagesForLocale, get. now rewrite messageMap_en.
Qed.

Lemma getMessagesForLocale_es : getMessagesForLocale "es" = JsMessages esMessages.
Proof.
  unfold TestUtils.getMessagesForLocale, get. now rewrite messageMap_es.
Qed.

(** A locale that is neither an own key of the map nor a name inherited from
    [Object.prototype] gets the English messages. *)
Lemma getMessagesForLocale_fallback (locale : string) :
  locale <> "en" -> locale <> "es" -> locale ∉ Object_prototype ->
  getMessagesForLocale locale = JsMessages enMessages.
Proof.
  intros Hen Hes Hproto. apply includes_false in Hproto.
  unfold TestUtils.getMessagesForLocale, get.
  rewrite (messageMap_other _ Hen Hes), Hproto. reflexivity.
Qed.

(** A locale that names a member of [Object.prototype] gets that member. *)
Lemma getMessagesForLocale_inherited (locale : string) :
  locale ∈ Object_prototype ->
  getMessagesForLocale locale = JsInherited locale.
Proof.
  intros Hproto.
  assert (Hen : locale <> "en").
  { intros ->. apply includes_true in Hproto. discriminate Hproto. }
  assert (Hes : locale <> "es").
  { intros ->. apply includes_true in Hproto. discriminate Hproto. }
  apply includes_true in Hproto.
  unfold TestUtils.getMessagesForLocale, get.
  rewrite (messageMap_other _ Hen Hes), Hproto. reflexivity.
Qed.

(** The next-intl branch of [AllTheProviders] hands the provider the same
    value [getMessagesForLocale] computes. *)
Lemma AllTheProviders_messages props :
  default true (useNextIntl props) = true ->
  prop "messages" (AllTheProviders props)
  = Some (PValue (getMessagesForLocale (default "en" (locale props)))).
Proof. intros H. unfold TestUtils.AllTheProviders. rewrite H. reflexivity. Qed.

(** C9, at the locale ["constructor"]. The locale is outside
    [{"en", "es"}], yet the lookup finds the member of that name on
    [Object.prototype], a truthy value, so [||] keeps it: neither
    [getMessagesForLocale] nor [AllTheProviders] (in either branch) ends up
    with the English messages. *)
Theorem constructor_locale_not_english children :
  getMessagesForLocale "constructor" = JsInherited "constructor"
  /\ getMessagesForLocale "constructor" <> JsMessages enMessages
  /\ prop "messages"
       (AllTheProviders {| children := children; translations := None;
                           isLoading := None; locale := Some "constructor";
                           useNextIntl := None |})
     = Some (PValue (JsInherited "constructor"))
  /\ ctx_messages (mockLocaleContext (Some "constructor") None None)
     = JsInherited "constructor".
Proof.
  assert (H : getMessagesForLocale "constructor" = JsInherited "constructor").
  { apply getMessagesForLocale_inherited, includes_true. reflexivity. }
  split; [exact H|]. split; [rewrite H; discriminate|]. split.
  - rewrite AllTheProviders_messages by reflexivity. simpl. now rewrite H.
  - unfold TestUtils.mockLocaleContext. simpl. exact H.
Qed.

End WithMessages.

(** The harness and the route disagree on a locale such as ["fr"]: the
    harness serves the English messages, the route answers not found. *)
Lemma harness_falls_back_where_route_rejects enMessages esMessages w :
  getMessagesForLocale enMessages esMessages "fr" = JsMessages enMessages
  /\ fst (Samples.layout Samples.page "fr" w) = Layout.NotFound.
Proof.
  split.
  - apply getMessagesForLocale_fallback; try discriminate.
    apply includes_false. reflexivity.
  - unfold Samples.layout.
    rewrite LayoutSpec.LocaleLayout_invalid by reflexivity. reflexivity.
Qed.

End TestUtilsSpec.

(** ** Properties of the news table *)
Module NewsTableSpec.
Import NewsTable.

Lemma visibleCount_after_closed (clicks : nat) :
  visibleCount_after clicks = 3 + 3 * clicks.
Proof.
  induction clicks as [|n IH]; simpl.
  - reflexivity.
  - rewrite IH. unfold handleLoadMore. lia.
Qed.

Section WithLocale.

Variable toLocaleDateString : string -> string -> string.
Variable locale : string.

Local Abbreviation LatestNewsTable :=
  (LatestNewsTable toLocaleDateString locale).

Lemma rows_length items visibleCount :
  List.length (rows (LatestNewsTable items visibleCount))
  = Nat.min visibleCount (List.length items).
Proof.
  unfold NewsTable.LatestNewsTable. simpl.
  rewrite length_imap. apply length_take.
Qed.

(** The rows are the first items of the list, in order. *)
Lemma rows_titles items visibleCount :
  row_title <$> rows (LatestNewsTable items visibleCount)
  = title <$> take visibleCount items.
Proof.
  unfold NewsTable.LatestNewsTable. simpl.
  rewrite fmap_imap. rewrite <- imap_const. apply imap_ext.
  intros i x _. reflexivity.
Qed.

Lemma loadMore_shown items visibleCount :
  loadMore (LatestNewsTable items visibleCount) = true
  <-> visibleCount < List.length items.
Proof.
  unfold NewsTable.LatestNewsTable. simpl.
  rewrite negb_true_iff. apply Nat.leb_gt.
Qed.

(** C10. Whatever the list, a render shows at most
    [min visibleCount (length items)] rows; the count is 3 before the first
    activation and each activation adds exactly 3; and the load-more control
    is on the page exactly when the count is below the number of items. *)
Theorem visible_rows_and_load_more items visibleCount clicks :
  List.length (rows (LatestNewsTable items visibleCount))
  <= Nat.min visibleCount (List.length items)
  /\ visibleCount_after 0 = 3
  /\ handleLoadMore visibleCount = visibleCount + 3
  /\ visibleCount_after (S clicks) = visibleCount_after clicks + 3
  /\ (loadMore (LatestNewsTable items visibleCount) = true
      <-> visibleCount < List.length items).
Proof.
  rewrite rows_length. repeat split; try reflexivity; try lia;
    apply loadMore_shown.
Qed.

End WithLocale.

End NewsTableSpec.

(** ** Properties of the static params and the metadata *)
Module RoutesSpec.
Import Routes.

Lemma fromEntries_step (f : string -> string) (l : list string)
    (object : gmap string string) (k : string) :
  fold_left (fun object entry => <[entry.1 := entry.2]> object)
            ((fun x => (x, f x)) <$> l) object !! k
  = if decide (k ∈ l) then Some (f k) else object !! k.
Proof.
  revert object. induction l as [|x l IH]; intros object.
  - rewrite decide_False by apply not_elem_of_nil. reflexivity.
  - rewrite fmap_cons. cbn [fold_left fst snd]. rewrite IH.
    destruct (decide (k = x)) as [->|Hne].
    + rewrite lookup_insert_eq, (decide_True (P := x ∈ x :: l)) by set_solver.
      by case_decide.
    + rewrite lookup_insert_ne by done.
      destruct (decide (k ∈ l)) as [Hin|Hout].
      * by rewrite decide_True by (apply elem_of_cons; tauto).
      * by rewrite decide_False by (intros [?|?]%elem_of_cons; done).
Qed.

Section WithRouting.

Variable locales : list string.
Variable defaultLocale : string.
Variable baseUrl : string.
Variable getTranslations : string -> string -> string -> string.
Variable URL : Type.
Variable new_URL : string -> URL.

Local Abbreviation generateMetadata :=
  (generateMetadata locales defaultLocale baseUrl getTranslations URL new_URL).
Local Abbreviation generateStaticParams := (generateStaticParams locales).

Lemma languages_at (locale key : string) :
  languages (alternates _ (generateMetadata locale)) !! key
  = if decide (key = "x-default") then Some (baseUrl +:+ "/" +:+ defaultLocale)
    else if decide (key ∈ locales) then Some (baseUrl +:+ "/" +:+ key)
    else None.
Proof.
  simpl. unfold fromEntries. rewrite fold_left_app. simpl.
  case_decide as Hx.
  - subst key. apply lookup_insert_eq.
  - rewrite lookup_insert_ne by done.
    rewrite (fromEntries_step (fun loc => baseUrl +:+ "/" +:+ loc)).
    case_decide; [done | apply lookup_empty].
Qed.

(** X1. The language alternates hold one entry per supported locale, pointing to
    [baseUrl/locale], and the entry [x-default], pointing to the default
    locale; [x-default] is written last, so it wins over a locale of that
    name. Nothing else is in the object. *)
Theorem languages_lookup (locale key : string) :
  languages (alternates _ (generateMetadata locale)) !! key
  = if decide (key = "x-default") then Some (baseUrl +:+ "/" +:+ defaultLocale)
    else if decide (key ∈ locales) then Some (baseUrl +:+ "/" +:+ key)
    else None.
Proof. exact (languages_at locale key). Qed.

(** X2. For a supported locale (not named [x-default]) the canonical URL of
    the page is the page's own entry among the language alternates. *)
Theorem canonical_is_own_alternate (locale : string) :
  locale ∈ locales ->
  locale <> "x-default" ->
  languages (alternates _ (generateMetadata locale)) !! locale
  = Some (canonical (alternates _ (generateMetadata locale))).
Proof.
  intros Hin Hne. rewrite languages_at.
  rewrite decide_False by done. rewrite decide_True by done. reflexivity.
Qed.

(** One static param per supported locale, in the order of the list. *)
Lemma generateStaticParams_locales :
  param_locale <$> generateStaticParams = locales.
Proof.
  unfold Routes.generateStaticParams. rewrite <- list_fmap_compose.
  apply list_fmap_id.
Qed.

End WithRouting.

Lemma canonical_is_own_alternate_sample :
  ("es" ∈ Samples.locales) /\ "es" <> "x-default"
  /\ languages (alternates _ (RoutesSamples.metadata "es")) !! "es"
     = Some "https://toddagriscience.example/es".
Proof.
  assert (Hin : "es" ∈ Samples.locales) by (apply includes_true; reflexivity).
  split; [exact Hin|]. split; [discriminate|].
  unfold RoutesSamples.metadata.
  rewrite (canonical_is_own_alternate Samples.locales RoutesSamples.defaultLocale
             RoutesSamples.baseUrl RoutesSamples.getTranslations string
             (fun href => href) "es" Hin) by discriminate.
  reflexivity.
Defined.

End RoutesSpec.

(** ** More on [LocaleLayout]: when each outcome occurs, and what is called *)
Module LayoutCalls.
Import Layout.

Section WithConfig.

Variable locales : list string.
Variable AUTH_COOKIE_NAME : string.
Variable fontVariables : string.
Variable notFoundError : JsError.
Variable typeError : JsError.

Local Abbreviation LocaleLayout :=
  (LocaleLayout locales AUTH_COOKIE_NAME fontVariables notFoundError typeError).
Local Abbreviation AuthenticationState := (AuthenticationState AUTH_COOKIE_NAME).
Local Abbreviation Shell := (Shell fontVariables).
Local Abbreviation paths :=
  (LayoutSpec.LocaleLayout_paths locales AUTH_COOKIE_NAME fontVariables
     notFoundError typeError).

Ltac on_each_path children locale w :=
  destruct (paths children locale w)
    as [[Hi Hrun]
       |[(Hi & Ha & Hrun)
        |[(B0 & Hi & Ha & Hl & Hrun)
         |[(x0 & e0 & Hi & Ha & Hl & He & Hrun)
          |(Hi & Ha & Hl & Hrun)]]]];
  rewrite Hrun; simpl.

Ltac calls_are evs :=
  rewrite (LayoutSpec.emitted_app _ _ evs)
    by (simpl; rewrite <- ?app_assoc; reflexivity);
  simpl.

Lemma not_found_cases children locale w :
  fst (LocaleLayout children locale w) = NotFound
  <-> locale ∉ locales
      \/ (AuthenticationState w = false
          /\ exists x, messageLoader w locale = inr x /\ x <> Nullish).
Proof.
  on_each_path children locale w.
  - split; [|reflexivity]. intros _. left. now apply includes_false.
  - split; [discriminate|]. intros [Hout|[Ha' _]].
    + apply includes_false in Hout. congruence.
    + congruence.
  - split; [discriminate|]. intros [Hout|[_ (x & Hx & _)]].
    + apply includes_false in Hout. congruence.
    + congruence.
  - split; [|reflexivity]. intros _. right. split; [exact Ha|].
    exists x0. split; [exact Hl|]. intros ->. discriminate He.
  - split; [discriminate|]. intros [Hout|[_ (x & Hx & Hne)]].
    + apply includes_false in Hout. congruence.
    + congruence.
Qed.

(** X3. The layout answers not found in two cases only: the locale is not a
    supported one, or the request is unauthenticated and the loader threw
    something other than [null] or [undefined]. *)
Theorem not_found_iff children locale w :
  fst (LocaleLayout children locale w) = NotFound
  <-> locale ∉ locales
      \/ (AuthenticationState w = false
          /\ exists x, messageLoader w locale = inr x /\ x <> Nullish).
Proof. exact (not_found_cases children locale w). Qed.

(** X4. The children come back untouched exactly for an authenticated request
    on a supported locale. *)
Theorem pass_through_iff children locale w :
  fst (LocaleLayout children locale w) = PassThrough children
  <-> locale ∈ locales /\ AuthenticationState w = true.
Proof.
  on_each_path children locale w.
  - split; [discriminate|]. intros [Hin _].
    apply includes_true in Hin. congruence.
  - split; [|reflexivity]. intros _. split; [now apply includes_true|done].
  - split.
    + intros H. unfold Layout.Shell, PassThrough in H. injection H as H.
      now apply LayoutSpec.shell_not_children in H.
    + intros [_ Ha']. congruence.
  - split; [discriminate|]. intros [_ Ha']. congruence.
  - split; [discriminate|]. intros [_ Ha']. congruence.
Qed.

(** X5. [getMessages] is only ever called with the requested locale, and only
    when that locale is supported and the request is unauthenticated. *)
Theorem loader_called_only_when_needed children locale w l :
  l ∈ loader_calls (emitted w (snd (LocaleLayout children locale w))) ->
  l = locale /\ locale ∈ locales /\ AuthenticationState w = false.
Proof.
  on_each_path children locale w.
  - calls_are [CookiesGet AUTH_COOKIE_NAME]. intros H. inversion H.
  - calls_are [CookiesGet AUTH_COOKIE_NAME]. intros H. inversion H.
  - calls_are [CookiesGet AUTH_COOKIE_NAME; GetMessages locale].
    intros H. apply list_elem_of_singleton in H.
    split; [done|]. split; [now apply includes_true|done].
  - calls_are [CookiesGet AUTH_COOKIE_NAME; GetMessages locale;
               ConsoleError (error_line x0); ConsoleError (details_line e0)].
    intros H. apply list_elem_of_singleton in H.
    split; [done|]. split; [now apply includes_true|done].
  - calls_are [CookiesGet AUTH_COOKIE_NAME; GetMessages locale;
               ConsoleError (error_line Nullish)].
    intros H. apply list_elem_of_singleton in H.
    split; [done|]. split; [now apply includes_true|done].
Qed.

(** X6. Nothing is written to the console unless the loader was called and
    threw, on a supported locale and an unauthenticated request. Such a run
    does not return a page: it ends in not found, or, when the thrown value
    is [null] or [undefined], in the [TypeError] of reading it. *)
Theorem console_only_after_failed_load children locale w :
  console_lines (emitted w (snd (LocaleLayout children locale w))) <> [] ->
  locale ∈ locales
  /\ AuthenticationState w = false
  /\ exists x,
       messageLoader w locale = inr x
       /\ fst (LocaleLayout children locale w)
          = match x with
            | Nullish => Abrupt (Rejected typeError)
            | _ => NotFound
            end.
Proof.
  on_each_path children locale w.
  - calls_are [CookiesGet AUTH_COOKIE_NAME]. congruence.
  - calls_are [CookiesGet AUTH_COOKIE_NAME]. congruence.
  - calls_are [CookiesGet AUTH_COOKIE_NAME; GetMessages locale]. congruence.
  - intros _. split; [now apply includes_true|]. split; [exact Ha|].
    exists x0. split; [exact Hl|].
    destruct x0; [reflexivity | reflexivity | discriminate He].
  - intros _. split; [now apply includes_true|]. split; [exact Ha|].
    exists Nullish. split; [exact Hl | reflexivity].
Qed.

(** X7. Every run starts by reading the authentication cookie, also when the
    locale turns out to be unsupported, and reads no cookie after that. *)
Theorem cookie_read_once_first children locale w :
  exists rest,
    emitted w (snd (LocaleLayout children locale w))
    = CookiesGet AUTH_COOKIE_NAME :: rest
    /\ forall c, CookiesGet c ∉ rest.
Proof.
  on_each_path children locale w.
  - exists []. split; [LayoutSpec.emitted_by_run|]. intros c H. inversion H.
  - exists []. split; [LayoutSpec.emitted_by_run|]. intros c H. inversion H.
  - exists [GetMessages locale]. split; [LayoutSpec.emitted_by_run|].
    intros c H. apply list_elem_of_singleton in H. discriminate.
  - exists [GetMessages locale; ConsoleError (error_line x0);
            ConsoleError (details_line e0)].
    split; [LayoutSpec.emitted_by_run|].
    intros c H. repeat (apply elem_of_cons in H as [H|H]; [discriminate|]).
    inversion H.
  - exists [GetMessages locale; ConsoleError (error_line Nullish)].
    split; [LayoutSpec.emitted_by_run|].
    intros c H. repeat (apply elem_of_cons in H as [H|H]; [discriminate|]).
    inversion H.
Qed.

(** X8. A locale produced by [generateStaticParams] always passes the locale
    check: on such a page a not-found answer can only come from a failed
    bundle load on an unauthenticated request. *)
Theorem static_params_pass_validation p children w :
  p ∈ Routes.generateStaticParams locales ->
  fst (LocaleLayout children (Routes.param_locale p) w) = NotFound ->
  AuthenticationState w = false
  /\ exists x, messageLoader w (Routes.param_locale p) = inr x.
Proof.
  intros Hp Hnf. apply not_found_cases in Hnf as [Hout|[Ha (x & Hx & _)]].
  - exfalso. apply Hout.
    unfold Routes.generateStaticParams in Hp.
    apply list_elem_of_fmap in Hp as (l & -> & Hl). exact Hl.
  - eauto.
Qed.

(** X22. Unless the loader rejects with [null] or [undefined], a run ends
    in exactly one of NotFound, PassThrough and Shell, and the only thing it
    can throw is the not-found signal. *)
Theorem three_outcomes_unless_nullish children locale w :
  messageLoader w locale <> inr Nullish ->
  ((fst (LocaleLayout children locale w) = NotFound
    /\ fst (LocaleLayout children locale w) <> PassThrough children
    /\ forall B, fst (LocaleLayout children locale w)
                 <> Shell children B locale)
   \/ (fst (LocaleLayout children locale w) = PassThrough children
       /\ fst (LocaleLayout children locale w) <> NotFound
       /\ forall B, fst (LocaleLayout children locale w)
                    <> Shell children B locale)
   \/ (exists B, fst (LocaleLayout children locale w) = Shell children B locale
                 /\ fst (LocaleLayout children locale w) <> NotFound
                 /\ fst (LocaleLayout children locale w)
                    <> PassThrough children))
  /\ forall x, fst (LocaleLayout children locale w) = Abrupt x ->
               x = NEXT_NOT_FOUND.
Proof.
  intros Hload.
  pose proof (LayoutSpec.PassThrough_not_Shell fontVariables children)
    as Hdistinct.
  on_each_path children locale w.
  - split; [|unfold NotFound; congruence].
    left. split; [reflexivity|]. split; [discriminate|]. intros B; discriminate.
  - split; [|unfold PassThrough; congruence].
    right; left. split; [reflexivity|]. split; [discriminate|].
    intros B. apply Hdistinct.
  - split; [|unfold Layout.Shell; congruence].
    right; right. exists B0. split; [reflexivity|]. split; [discriminate|].
    intros H. symmetry in H. now apply Hdistinct in H.
  - split; [|unfold NotFound; congruence].
    left. split; [reflexivity|]. split; [discriminate|]. intros B; discriminate.
  - contradiction.
Qed.

(** X23. No run calls [getMessages] more than once: a failed load is not
    retried, whatever was thrown. *)
Theorem loader_called_at_most_once children locale w :
  List.length
    (loader_calls (emitted w (snd (LocaleLayout children locale w)))) <= 1.
Proof.
  on_each_path children locale w.
  - calls_are [CookiesGet AUTH_COOKIE_NAME]. lia.
  - calls_are [CookiesGet AUTH_COOKIE_NAME]. lia.
  - calls_are [CookiesGet AUTH_COOKIE_NAME; GetMessages locale]. lia.
  - calls_are [CookiesGet AUTH_COOKIE_NAME; GetMessages locale;
               ConsoleError (error_line x0); ConsoleError (details_line e0)].
    lia.
  - calls_are [CookiesGet AUTH_COOKIE_NAME; GetMessages locale;
               ConsoleError (error_line Nullish)].
    lia.
Qed.

End WithConfig.

Import Samples.

Lemma loader_called_only_when_needed_sample :
  ("en" ∈ loader_calls (emitted anonymous (snd (layout page "en" anonymous))))
  /\ ("en" ∈ locales)
  /\ Layout.AuthenticationState AUTH_COOKIE_NAME anonymous = false.
Proof.
  assert (Hcall : "en" ∈ loader_calls
                    (emitted anonymous (snd (layout page "en" anonymous)))).
  { vm_compute. constructor. }
  split; [exact Hcall|].
  apply (loader_called_only_when_needed locales AUTH_COOKIE_NAME fontVariables
           notFoundError typeError page "en" anonymous "en" Hcall).
Defined.

Lemma console_only_after_failed_load_sample :
  console_lines
    (emitted rejectedWithNull (snd (layout page "es" rejectedWithNull))) <> []
  /\ exists x,
       messageLoader rejectedWithNull "es" = inr x
       /\ fst (layout page "es" rejectedWithNull)
          = match x with
            | Nullish => Abrupt (Rejected typeError)
            | _ => Layout.NotFound
            end.
Proof.
  assert (Hlog : console_lines
                   (emitted rejectedWithNull
                      (snd (layout page "es" rejectedWithNull)))
                 <> []).
  { vm_compute. discriminate. }
  split; [exact Hlog|].
  apply (console_only_after_failed_load locales AUTH_COOKIE_NAME fontVariables
           notFoundError typeError page "es" rejectedWithNull Hlog).
Defined.

Lemma static_params_pass_validation_sample :
  ({| Routes.param_locale := "es" |} ∈ Routes.generateStaticParams locales)
  /\ fst (layout page "es" anonymous) = Layout.NotFound
  /\ Layout.AuthenticationState AUTH_COOKIE_NAME anonymous = false
  /\ exists x, messageLoader anonymous "es" = inr x.
Proof.
  assert (Hp : {| Routes.param_locale := "es" |}
               ∈ Routes.generateStaticParams locales).
  { vm_compute. repeat constructor. }
  assert (Hnf : fst (layout page "es" anonymous) = Layout.NotFound)
    by reflexivity.
  split; [exact Hp|]. split; [exact Hnf|].
  apply (static_params_pass_validation locales AUTH_COOKIE_NAME fontVariables
           notFoundError typeError {| Routes.param_locale := "es" |} page
           anonymous Hp Hnf).
Defined.

Lemma three_outcomes_unless_nullish_sample :
  messageLoader anonymous "es" <> inr Nullish
  /\ forall x, fst (layout page "es" anonymous) = Abrupt x ->
               x = NEXT_NOT_FOUND.
Proof.
  assert (Hload : messageLoader anonymous "es" <> inr Nullish)
    by (vm_compute; discriminate).
  split; [exact Hload|].
  apply (three_outcomes_unless_nullish locales AUTH_COOKIE_NAME fontVariables
           notFoundError typeError page "es" anonymous Hload).
Defined.

End LayoutCalls.

(** ** More on the news table: which rows, which separators, how it grows *)
Module NewsTableRows.
Import NewsTable NewsTableClicks.

Section WithLocale.

Variable toLocaleDateString : string -> string -> string.
Variable locale : string.

Local Abbreviation LatestNewsTable :=
  (LatestNewsTable toLocaleDateString locale).
Local Abbreviation click := (click toLocaleDateString locale).
Local Abbreviation clicks := (clicks toLocaleDateString locale).
Local Abbreviation rows_length := (NewsTableSpec.rows_length toLocaleDateString locale).
Local Abbreviation loadMore_shown :=
  (NewsTableSpec.loadMore_shown toLocaleDateString locale).

(** X9. The rows are the first [visibleCount] items, in the order of the list,
    each with its own title, link and source. *)
Theorem rows_are_first_items items visibleCount :
  (fun r => (row_title r, row_href r, row_source r))
    <$> rows (LatestNewsTable items visibleCount)
  = (fun item => (title item, link item, source item))
    <$> take visibleCount items.
Proof.
  unfold NewsTable.LatestNewsTable. simpl.
  rewrite fmap_imap. rewrite <- imap_const. apply imap_ext.
  intros i x _. reflexivity.
Qed.

(** X10. Every rendered row has the separator line below it, except the last
    rendered one. *)
Theorem separator_on_all_but_last items visibleCount i r :
  rows (LatestNewsTable items visibleCount) !! i = Some r ->
  row_border r = true
  <-> i + 1 < List.length (rows (LatestNewsTable items visibleCount)).
Proof.
  intros Hrow. rewrite rows_length.
  unfold NewsTable.LatestNewsTable in Hrow. simpl in Hrow.
  rewrite list_lookup_imap in Hrow.
  destruct (take visibleCount items !! i) as [item|] eqn:Hitem;
    [|discriminate].
  injection Hrow as <-. simpl.
  apply lookup_lt_Some in Hitem. rewrite length_take in Hitem.
  rewrite andb_true_iff, !negb_true_iff, !Z.eqb_neq. lia.
Qed.

Lemma rows_length_by_control items visibleCount :
  List.length (rows (LatestNewsTable items visibleCount))
  = if loadMore (LatestNewsTable items visibleCount)
    then visibleCount
    else List.length items.
Proof.
  rewrite rows_length.
  destruct (loadMore (LatestNewsTable items visibleCount)) eqn:Hctl.
  - apply loadMore_shown in Hctl. lia.
  - assert (~ visibleCount < List.length items).
    { intros H. apply loadMore_shown in H. congruence. }
    lia.
Qed.

(** X11. While the control is on the page exactly [visibleCount] rows are
    rendered; once it is gone, every item is. *)
Theorem rows_count_by_control items visibleCount :
  List.length (rows (LatestNewsTable items visibleCount))
  = if loadMore (LatestNewsTable items visibleCount)
    then visibleCount
    else List.length items.
Proof. exact (rows_length_by_control items visibleCount). Qed.

(** X12. An activation of the control reveals up to three more rows and at
    least one: the new number of rows is the old one plus three, capped by
    the number of items. *)
Theorem load_more_reveals items visibleCount :
  loadMore (LatestNewsTable items visibleCount) = true ->
  let before := List.length (rows (LatestNewsTable items visibleCount)) in
  let after :=
    List.length (rows (LatestNewsTable items (handleLoadMore visibleCount))) in
  after = Nat.min (before + 3) (List.length items) /\ before < after.
Proof.
  intros Hctl. apply loadMore_shown in Hctl. cbv zeta.
  rewrite !rows_length. unfold handleLoadMore. lia.
Qed.

Lemma clicks_while_shown items n :
  clicks items n < List.length items -> clicks items n = 3 + 3 * n.
Proof.
  induction n as [|n IH]; simpl; [reflexivity|].
  unfold NewsTableClicks.click.
  destruct (loadMore (LatestNewsTable items (clicks items n))) eqn:Hctl.
  - apply loadMore_shown in Hctl. unfold handleLoadMore. lia.
  - intros Hlt. apply loadMore_shown in Hlt. congruence.
Qed.

(** X13. After enough activations the whole list is on the page and the control
    is gone: [n] actions suffice as soon as [3 + 3 * n] reaches the number
    of items, and further actions change nothing. *)
Theorem all_items_after_enough_clicks items n :
  List.length items <= 3 + 3 * n ->
  loadMore (LatestNewsTable items (clicks items n)) = false
  /\ List.length (rows (LatestNewsTable items (clicks items n)))
     = List.length items
  /\ click items (clicks items n) = clicks items n.
Proof.
  intros Hn.
  assert (Hctl : loadMore (LatestNewsTable items (clicks items n)) = false).
  { destruct (loadMore (LatestNewsTable items (clicks items n))) eqn:Hctl;
      [|reflexivity].
    apply loadMore_shown in Hctl.
    pose proof (clicks_while_shown items n Hctl). lia. }
  split; [exact Hctl|]. split.
  - rewrite rows_length_by_control, Hctl. reflexivity.
  - unfold NewsTableClicks.click. rewrite Hctl. reflexivity.
Qed.

(** X14. The count never runs ahead of the list by three or more: it is 3, or
    it is below the number of items plus three. *)
Theorem clicks_never_overshoot items n :
  clicks items n = 3 \/ clicks items n < List.length items + 3.
Proof.
  induction n as [|n IH]; simpl; [now left|].
  unfold NewsTableClicks.click.
  destruct (loadMore (LatestNewsTable items (clicks items n))) eqn:Hctl.
  - apply loadMore_shown in Hctl. right. unfold handleLoadMore. lia.
  - exact IH.
Qed.

End WithLocale.

Import NewsSamples.

Lemma separator_on_all_but_last_sample :
  (exists r, rows (table 3) !! 2 = Some r /\ row_border r = false)
  /\ (exists r, rows (table 3) !! 1 = Some r /\ row_border r = true).
Proof.
  split.
  - eexists. split; [reflexivity|].
    apply not_true_is_false. intros Hb.
    apply (separator_on_all_but_last toLocaleDateString "en" items 3 2 _
             eq_refl) in Hb.
    vm_compute in Hb. lia.
  - eexists. split; [reflexivity|].
    apply (separator_on_all_but_last toLocaleDateString "en" items 3 1 _
             eq_refl).
    vm_compute. lia.
Defined.

Lemma load_more_reveals_sample :
  loadMore (table 3) = true
  /\ List.length (rows (table (handleLoadMore 3))) = 5
  /\ List.length (rows (table 3)) < List.length (rows (table (handleLoadMore 3))).
Proof.
  split; [reflexivity|].
  destruct (load_more_reveals toLocaleDateString "en" items 3 eq_refl)
    as [Hafter Hmore].
  split; [exact Hafter | exact Hmore].
Defined.

Lemma all_items_after_enough_clicks_sample :
  List.length items <= 3 + 3 * 1
  /\ loadMore (table (NewsTableClicks.clicks toLocaleDateString "en" items 1))
     = false
  /\ List.length
       (rows (table (NewsTableClicks.clicks toLocaleDateString "en" items 1)))
     = List.length items.
Proof.
  assert (Hn : List.length items <= 3 + 3 * 1) by (vm_compute; lia).
  split; [exact Hn|].
  destruct (all_items_after_enough_clicks toLocaleDateString "en" items 1 Hn)
    as (Hctl & Hrows & _).
  split; [exact Hctl | exact Hrows].
Defined.

End NewsTableRows.

(** ** Properties of the mocked translation function *)
Module TranslateSpec.
Import TestUtils Translate.

Lemma split_not_nil (s : string) : split s <> [].
Proof.
  induction s as [|c rest IH]; simpl; [discriminate|].
  destruct (Ascii.eqb c "."); [discriminate|].
  destruct (split rest); discriminate.
Qed.

Lemma split_dotfree (p : string) : dotfree p = true -> split p = [p].
Proof.
  induction p as [|c rest IH]; simpl; [reflexivity|].
  intros H. apply andb_true_iff in H as [Hc Hrest].
  apply negb_true_iff in Hc. rewrite Hc, (IH Hrest). reflexivity.
Qed.

Lemma split_app_dot (p rest : string) :
  dotfree p = true -> split (p +:+ String "." rest) = p :: split rest.
Proof.
  induction p as [|c p' IH]; simpl; [reflexivity|].
  intros H. apply andb_true_iff in H as [Hc Hp'].
  apply negb_true_iff in Hc. rewrite Hc, (IH Hp'). reflexivity.
Qed.

Lemma split_parts_dotfree (s : string) :
  Forall (fun p => dotfree p = true) (split s).
Proof.
  induction s as [|c rest IH]; simpl.
  - repeat constructor.
  - destruct (Ascii.eqb c ".") eqn:Hc.
    + constructor; [reflexivity | exact IH].
    + destruct (split rest) as [|first others]; [repeat constructor; simpl; now rewrite Hc|].
      inversion IH as [|? ? Hfirst Hothers]; subst.
      constructor; [simpl; now rewrite Hc, Hfirst | exact Hothers].
Qed.

Lemma split_join (parts : list string) :
  parts <> [] ->
  Forall (fun p => dotfree p = true) parts ->
  split (join parts) = parts.
Proof.
  induction parts as [|p [|q rest] IH]; intros Hne Hall.
  - contradiction.
  - inversion Hall; subst. simpl. now apply split_dotfree.
  - inversion Hall as [|? ? Hp Hrest]; subst.
    change (join (p :: q :: rest)) with (p +:+ String "." (join (q :: rest))).
    rewrite (split_app_dot _ _ Hp). f_equal. apply IH; [discriminate|exact Hrest].
Qed.

(** Joining what [split] produced gives the string back. *)
Lemma join_split (s : string) : join (split s) = s.
Proof.
  induction s as [|c rest IH]; simpl; [reflexivity|].
  destruct (Ascii.eqb c ".") eqn:Hc.
  - apply Ascii.eqb_eq in Hc. subst c.
    pose proof (split_not_nil rest) as Hne.
    destruct (split rest) as [|first others] eqn:Hs; [contradiction|].
    change (join ("" :: first :: others))
      with (String "." (join (first :: others))).
    now rewrite IH.
  - destruct (split rest) as [|first [|second others]] eqn:Hs.
    + now destruct (split_not_nil rest).
    + unfold join in *. simpl in *. congruence.
    + change (join (String c first :: second :: others))
        with (String c (first +:+ String "." (join (second :: others)))).
      change (join (first :: second :: others))
        with (first +:+ String "." (join (second :: others))) in IH.
      now rewrite IH.
Qed.

Lemma proto_is_member (key : string) :
  String.eqb key "__proto__" = true -> includes Object_prototype key = true.
Proof. intros H. apply String.eqb_eq in H. subst key. reflexivity. Qed.

Lemma step_get (o : Obj) (segment : string) :
  step (VObject o) segment = get o segment.
Proof.
  unfold step. destruct (has o segment) eqn:Hhas; [reflexivity|].
  destruct o as [own|]; cbn [has get] in *.
  - destruct (assoc segment own); [discriminate|].
    unfold inherited. rewrite Hhas.
    destruct (String.eqb segment "__proto__") eqn:Hp; [|reflexivity].
    apply proto_is_member in Hp. congruence.
  - rewrite Hhas.
    destruct (String.eqb segment "__proto__") eqn:Hp; [|reflexivity].
    apply proto_is_member in Hp. congruence.
Qed.

Lemma walk_undefined (parts : list string) :
  fold_left step parts VUndefined = VUndefined.
Proof. induction parts as [|p parts IH]; simpl; [reflexivity|exact IH]. Qed.

Lemma walk_off_object (v : Val) (parts : list string) :
  parts <> [] ->
  (forall o, v <> VObject o) ->
  fold_left step parts v = VUndefined.
Proof.
  destruct parts as [|p parts]; [contradiction|]. intros _ Hv. simpl.
  replace (step v p) with VUndefined; [apply walk_undefined|].
  destruct v; try reflexivity. now destruct (Hv o).
Qed.

(** X15. A non-empty override for the key is what [t] returns, whatever the
    messages hold. *)
Theorem override_wins customTranslations actualMessages key (v : string) :
  customTranslations !! key = Some v ->
  v <> "" ->
  t customTranslations actualMessages key = VString v.
Proof.
  intros Hkey Hv. unfold t, override. rewrite Hkey. simpl.
  apply String.eqb_neq in Hv. rewrite Hv. reflexivity.
Qed.

(** X16. For a non-empty key [t] never comes back with nothing: the result is
    truthy (never [undefined], [null] or the empty string), because every
    miss ends in the key itself. *)
Theorem never_blank customTranslations actualMessages key :
  key <> "" ->
  is_true (t customTranslations actualMessages key) = true.
Proof.
  intros Hkey. apply String.eqb_neq in Hkey.
  assert (Hfallback : is_true (VString key) = true) by (simpl; now rewrite Hkey).
  unfold t.
  destruct (is_true (override customTranslations key)) eqn:Ho; [exact Ho|].
  cbv zeta. destruct (2 <=? List.length (split key))%nat; [|exact Hfallback].
  destruct (get (Plain actualMessages) (hd "" (split key)));
    try exact Hfallback.
  destruct (getNestedValue o (join (tl (split key)))) eqn:Hn;
    try exact Hfallback.
  destruct (is_true (VString s)) eqn:Hs; [exact Hs | exact Hfallback].
Qed.

Lemma t_walk customTranslations actualMessages key :
  is_true (override customTranslations key) = false ->
  t customTranslations actualMessages key
  = match split key with
    | _ :: _ :: _ =>
        match fold_left step (split key) (VObject (Plain actualMessages)) with
        | VString s => if String.eqb s "" then VString key else VString s
        | _ => VString key
        end
    | _ => VString key
    end.
Proof.
  intros Ho. unfold t. rewrite Ho. cbv zeta.
  pose proof (split_parts_dotfree key) as Hall.
  destruct (split key) as [|ns [|k rest]] eqn:Hs; try reflexivity.
  inversion Hall as [|? ? _ Htail]; subst.
  cbn [List.length Nat.leb hd tl].
  change (fold_left step (ns :: k :: rest) (VObject (Plain actualMessages)))
    with (fold_left step (k :: rest)
            (step (VObject (Plain actualMessages)) ns)).
  rewrite step_get.
  destruct (get (Plain actualMessages) ns) as [| |s|f|o] eqn:Hns;
    try (rewrite walk_off_object
           by first [discriminate | intros ?; discriminate];
         reflexivity).
  unfold getNestedValue. rewrite split_join by (try discriminate; exact Htail).
  destruct (fold_left step (k :: rest) (VObject o)) as [| |s|f|o'];
    try reflexivity.
  simpl. destruct (String.eqb s ""); reflexivity.
Qed.

(** X17. The split, slice, join and second split of [t] amount to one walk down
    the message object along the dot-separated segments of the key: without
    an override, a key of at least two segments gives the non-empty string
    found at the end of the walk, and the key itself in every other case. *)
Theorem translation_is_one_walk customTranslations actualMessages key :
  is_true (override customTranslations key) = false ->
  t customTranslations actualMessages key
  = match split key with
    | _ :: _ :: _ =>
        match fold_left step (split key) (VObject (Plain actualMessages)) with
        | VString s => if String.eqb s "" then VString key else VString s
        | _ => VString key
        end
    | _ => VString key
    end.
Proof. exact (t_walk customTranslations actualMessages key). Qed.

(** X18. A key without a dot is never looked up in the messages: without an
    override [t] returns the key, also when the messages have a string
    under that very name. *)
Theorem dotless_key_not_translated customTranslations actualMessages key :
  dotfree key = true ->
  is_true (override customTranslations key) = false ->
  t customTranslations actualMessages key = VString key.
Proof.
  intros Hdot Ho. rewrite t_walk by exact Ho.
  now rewrite (split_dotfree _ Hdot).
Qed.

(** X19. A message stored as [namespace.name] is found under the key
    ["namespace.name"]; an empty message counts as missing and gives the
    key back. *)
Theorem namespaced_message_found customTranslations actualMessages
    namespace name entries (text : string) :
  dotfree namespace = true ->
  dotfree name = true ->
  assoc namespace actualMessages = Some (Namespace entries) ->
  assoc name entries = Some (Leaf text) ->
  let key := namespace +:+ String "." name in
  is_true (override customTranslations key) = false ->
  t customTranslations actualMessages key
  = if String.eqb text "" then VString key else VString text.
Proof.
  intros Hns Hname Hentries Htext key Ho.
  rewrite t_walk by exact Ho. subst key.
  rewrite (split_app_dot _ _ Hns), (split_dotfree _ Hname).
  cbn [fold_left]. rewrite !step_get. simpl. rewrite Hentries. simpl.
  rewrite Htext. reflexivity.
Qed.

(** X20. Asked for a name that every object inherits, such as ["toString"],
    with no override of that name, [t] returns the inherited member, which
    is not a string. *)
Theorem inherited_name_not_a_string customTranslations actualMessages key :
  key ∈ Object_prototype ->
  customTranslations !! key = None ->
  t customTranslations actualMessages key = inherited key
  /\ forall s, t customTranslations actualMessages key <> VString s.
Proof.
  intros Hin Hnone. apply includes_true in Hin.
  assert (Ht : t customTranslations actualMessages key = inherited key).
  { unfold t, override. rewrite Hnone. unfold inherited. rewrite Hin.
    destruct (String.eqb key "__proto__"); reflexivity. }
  split; [exact Ht|]. intros s. rewrite Ht. unfold inherited. rewrite Hin.
  destruct (String.eqb key "__proto__"); discriminate.
Qed.

Import TranslateSamples.

Lemma override_wins_sample :
  overrides !! "homepage.welcome" = Some "Hello"
  /\ t overrides messages "homepage.welcome" = VString "Hello".
Proof.
  assert (H : overrides !! "homepage.welcome" = Some "Hello")
    by (vm_compute; reflexivity).
  split; [exact H|].
  apply (override_wins overrides messages "homepage.welcome" "Hello" H).
  discriminate.
Defined.

Lemma never_blank_sample :
  "homepage.blank" <> ""
  /\ is_true (t overrides messages "homepage.blank") = true.
Proof.
  split; [discriminate|].
  apply (never_blank overrides messages "homepage.blank"). discriminate.
Defined.

Lemma translation_is_one_walk_sample :
  is_true (override overrides "homepage.hero.cta") = false
  /\ t overrides messages "homepage.hero.cta" = VString "Join us".
Proof.
  assert (H : is_true (override overrides "homepage.hero.cta") = false)
    by (vm_compute; reflexivity).
  split; [exact H|].
  rewrite (translation_is_one_walk overrides messages "homepage.hero.cta" H).
  reflexivity.
Defined.

Lemma dotless_key_not_translated_sample :
  dotfree "title" = true
  /\ is_true (override overrides "title") = false
  /\ assoc "title" messages = Some (Leaf "Todd")
  /\ t overrides messages "title" = VString "title".
Proof.
  assert (H : is_true (override overrides "title") = false)
    by (vm_compute; reflexivity).
  split; [reflexivity|]. split; [exact H|]. split; [reflexivity|].
  apply (dotless_key_not_translated overrides messages "title" eq_refl H).
Defined.

Lemma namespaced_message_found_sample :
  is_true (override ∅ "homepage.welcome") = false
  /\ t ∅ messages "homepage.welcome" = VString "Welcome to Todd".
Proof.
  assert (H : is_true (override ∅ "homepage.welcome") = false)
    by (vm_compute; reflexivity).
  split; [exact H|].
  apply (namespaced_message_found ∅ messages "homepage" "welcome"
           [("welcome", Leaf "Welcome to Todd");
            ("hero", Namespace [("cta", Leaf "Join us")]);
            ("blank", Leaf "")]
           "Welcome to Todd" eq_refl eq_refl eq_refl eq_refl H).
Defined.

Lemma inherited_name_not_a_string_sample :
  ("toString" ∈ Object_prototype)
  /\ overrides !! "toString" = None
  /\ t overrides messages "toString" = VFunction "toString".
Proof.
  assert (Hin : "toString" ∈ Object_prototype)
    by (apply includes_true; reflexivity).
  assert (Hnone : overrides !! "toString" = None) by (vm_compute; reflexivity).
  split; [exact Hin|]. split; [exact Hnone|].
  apply (inherited_name_not_a_string overrides messages "toString" Hin Hnone).
Defined.

End TranslateSpec.

(** ** The providers on a locale without a bundle *)
Module TestUtilsLocale.
Import TestUtils.

(** X21. For a locale the harness has no bundle for (and that is not a name
    inherited from [Object.prototype]), the next-intl provider is handed the
    requested locale tag together with the English messages. *)
Theorem unknown_locale_keeps_tag enMessages esMessages props (l : string) :
  locale props = Some l ->
  default true (useNextIntl props) = true ->
  l <> "en" -> l <> "es" -> l ∉ Object_prototype ->
  prop "locale" (AllTheProviders enMessages esMessages props)
  = Some (PString l)
  /\ prop "messages" (AllTheProviders enMessages esMessages props)
     = Some (PValue (JsMessages enMessages)).
Proof.
  intros Hl Hintl Hen Hes Hproto. split.
  - unfold AllTheProviders. rewrite Hintl, Hl. reflexivity.
  - rewrite TestUtilsSpec.AllTheProviders_messages by exact Hintl.
    rewrite Hl. simpl.
    now rewrite TestUtilsSpec.getMessagesForLocale_fallback.
Qed.

Lemma unknown_locale_keeps_tag_sample :
  ("fr" ∉ Object_prototype)
  /\ prop "locale"
       (AllTheProviders Samples.enBundle [] 
          {| children := Samples.page; translations := None;
             isLoading := None; locale := Some "fr"; useNextIntl := None |})
     = Some (PString "fr")
  /\ prop "messages"
       (AllTheProviders Samples.enBundle []
          {| children := Samples.page; translations := None;
             isLoading := None; locale := Some "fr"; useNextIntl := None |})
     = Some (PValue (JsMessages Samples.enBundle)).
Proof.
  assert (Hproto : "fr" ∉ Object_prototype)
    by (apply includes_false; reflexivity).
  split; [exact Hproto|].
  apply (unknown_locale_keeps_tag Samples.enBundle []
           {| children := Samples.page; translations := None;
              isLoading := None; locale := Some "fr"; useNextIntl := None |}
           "fr" eq_refl eq_refl); [discriminate | discriminate | exact Hproto].
Defined.

End TestUtilsLocale.
